(** * RepositorySettings: the edit / diff / save logic of the settings form

    A shallow embedding of [src/components/repositories/RepositorySettings.tsx].
    The component keeps three pieces of React state

      - [initialSettings]            the last snapshot confirmed by the server ("saved"),
      - [settings]                   the locally edited snapshot ("draft"),
      - [additionalEnvironmentToAdd] the text of the pending environment line,

    and a handful of event handlers that replace them.  Every handler is
    embedded as a function from the state it closes over to the state after
    its setter calls; what the handlers print goes to an explicit console.

    JavaScript strings are embedded as [string]; the library functions the
    component calls ([JSON.stringify] on an array of strings, [split], [join],
    [concat], [filter]) and the addition of numbers are embedded in module
    [JS]. *)

From Stdlib Require Import Bool List ZArith NArith Ascii String Lia.
From Stdlib Require Import SpecFloat.
Import ListNotations.

Local Open Scope list_scope.
Local Open Scope string_scope.

(* ================================================================= *)
(** ** JavaScript built-ins *)

Module JS.

Definition dquote : ascii := "034"%char.
Definition backslash : ascii := "\"%char.
Definition comma : ascii := ","%char.

(** One lower-case hexadecimal digit, as [UnicodeEscape] prints it. *)
Definition hexDigit (n : N) : ascii :=
  match n with
  | 0%N => "0" | 1%N => "1" | 2%N => "2" | 3%N => "3"
  | 4%N => "4" | 5%N => "5" | 6%N => "6" | 7%N => "7"
  | 8%N => "8" | 9%N => "9" | 10%N => "a" | 11%N => "b"
  | 12%N => "c" | 13%N => "d" | 14%N => "e" | _ => "f"
  end%char.

(** [UnicodeEscape(C)]: backslash, [u] and the four hex digits of the code unit. *)
Definition UnicodeEscape (c : ascii) : string :=
  let n := N_of_ascii c in
  String backslash (String "u"
    (String (hexDigit (n / 4096))
    (String (hexDigit ((n / 256) mod 16))
    (String (hexDigit ((n / 16) mod 16))
    (String (hexDigit (n mod 16)) ""))))).

(** One step of [QuoteJSONString]: the two-character escapes of the table,
    [UnicodeEscape] for the remaining control characters, the character
    itself otherwise. *)
Definition escapeChar (c : ascii) : string :=
  match N_of_ascii c with
  | 8%N => String backslash "b"
  | 9%N => String backslash "t"
  | 10%N => String backslash "n"
  | 12%N => String backslash "f"
  | 13%N => String backslash "r"
  | 34%N => String backslash (String dquote "")
  | 92%N => String backslash (String backslash "")
  | n => if (n <? 32)%N then UnicodeEscape c else String c ""
  end.

Fixpoint escapeBody (s : string) : string :=
  match s with
  | "" => ""
  | String c r => escapeChar c ++ escapeBody r
  end.

Definition QuoteJSONString (s : string) : string :=
  String dquote (escapeBody s ++ String dquote "").

(** [JSON.stringify] of an array of strings, without indentation:
    the quoted elements separated by commas, between brackets. *)
Definition stringify (a : list string) : string :=
  "[" ++ String.concat "," (map QuoteJSONString a) ++ "]".

(** [s.split(',')] for a one-character separator: a new segment starts
    after every occurrence; nothing is trimmed and no segment is dropped. *)
Fixpoint split (sep : ascii) (s : string) : list string :=
  match s with
  | "" => [""]
  | String c r =>
      if (c =? sep)%char then "" :: split sep r
      else match split sep r with
           | seg :: segs => String c seg :: segs
           | [] => [String c ""]
           end
  end.

(** [a.join(',')]. *)
Definition join (sep : ascii) (a : list string) : string :=
  String.concat (String sep "") a.

(** [a.concat(x)] with a value [x] that is not an array: a copy of [a]
    with [x] appended. *)
Definition concat1 {A} (a : list A) (x : A) : list A := (a ++ [x])%list.

(** [a.concat()]: a shallow copy. *)
Definition concat0 {A} (a : list A) : list A := (a ++ [])%list.

(** [a.filter(p)]. *)
Definition filter {A} (p : A -> bool) (a : list A) : list A := List.filter p a.

(** [x || []] where [x] is an array: every array is truthy, the empty one
    included, so the guard returns [x]. *)
Definition orEmpty {A} (a : list A) : list A := a.

(** [a === b] and [a !== b] on strings. *)
Definition strictEq (a b : string) : bool := (a =? b)%string.
Definition strictNe (a b : string) : bool := negb (a =? b)%string.

(** Numbers are binary64 values; an integer-valued number is held by its
    value in [Z].  [toBinary64 z] is the binary64 value nearest to the
    integer [z], the one with the even significand on a tie, and
    [integerValue] reads the value of an integer-valued number back. *)
Definition toBinary64 (z : Z) : spec_float := binary_normalize 53 1024 z 0 false.

Definition integerValue (x : spec_float) : Z :=
  match x with
  | S754_finite s m e =>
      cond_Zopp s (match e with
                   | Zneg k => Zpos m / 2 ^ Zpos k
                   | _ => Zpos m * 2 ^ e
                   end)%Z
  | _ => 0%Z
  end.

(** [a + b] on integer-valued numbers: the exact sum, rounded to binary64. *)
Definition numberAdd (a b : Z) : Z := integerValue (toBinary64 (a + b)).

(** The same sum computed by the addition of the floating-point
    specification on the two operands. *)
Definition numberAddOperands (a b : Z) : Z :=
  integerValue (SFadd 53 1024 (toBinary64 a) (toBinary64 b)).

(** The inverse of [escapeChar] on the front of a string; it reads no
    escape when the string starts with the closing quote. *)
Definition unhex (c : ascii) : option N :=
  let n := N_of_ascii c in
  if ((48 <=? n) && (n <=? 57))%N then Some (n - 48)%N
  else if ((97 <=? n) && (n <=? 102))%N then Some (n - 87)%N
  else None.

Definition unescape (s : string) : option (ascii * string) :=
  match s with
  | "" => None
  | String c r =>
      if (c =? dquote)%char then None
      else if (c =? backslash)%char then
        match r with
        | "" => None
        | String e r' =>
            if (e =? "b")%char then Some ("008"%char, r')
            else if (e =? "t")%char then Some ("009"%char, r')
            else if (e =? "n")%char then Some ("010"%char, r')
            else if (e =? "f")%char then Some ("012"%char, r')
            else if (e =? "r")%char then Some ("013"%char, r')
            else if (e =? dquote)%char then Some (dquote, r')
            else if (e =? backslash)%char then Some (backslash, r')
            else if (e =? "u")%char then
              match r' with
              | String h3 (String h2 (String h1 (String h0 r''))) =>
                  match unhex h3, unhex h2, unhex h1, unhex h0 with
                  | Some a, Some b, Some c', Some d =>
                      Some (ascii_of_N (4096 * a + 256 * b + 16 * c' + d), r'')
                  | _, _, _, _ => None
                  end
              | _ => None
              end
            else None
        end
      else Some (c, r)
  end.

End JS.

Arguments JS.numberAdd : simpl never.

(* ================================================================= *)
(** ** The component *)

Module RepositorySettings.

(** *** Data model: the [settings] selection of the fragment *)

Inductive DecryptEnvironmentVariablesFor :=
| USERS_WITH_WRITE_PERMISSIONS | COLLABORATORS | EVERYONE.

Inductive ConfigResolutionStrategy :=
| SAME_SHA | MERGE_FOR_PRS | DEFAULT_BRANCH.

(** [cacheVersion] is an integer of the schema, held in a JavaScript
    number: the field is the value of that number, [===] on it is equality
    of values and [+] is [JS.numberAdd]. *)
Record Settings := mkSettings {
  needsApproval : bool;
  decryptEnvironmentVariables : DecryptEnvironmentVariablesFor;
  configResolutionStrategy : ConfigResolutionStrategy;
  additionalEnvironment : list string;
  cacheVersion : Z;
  oidcSubIncludeClaimKeys : list string
}.

(** [===] on the two enumerations. *)
Definition decryptEq (a b : DecryptEnvironmentVariablesFor) : bool :=
  match a, b with
  | USERS_WITH_WRITE_PERMISSIONS, USERS_WITH_WRITE_PERMISSIONS => true
  | COLLABORATORS, COLLABORATORS => true
  | EVERYONE, EVERYONE => true
  | _, _ => false
  end.

Definition strategyEq (a b : ConfigResolutionStrategy) : bool :=
  match a, b with
  | SAME_SHA, SAME_SHA => true
  | MERGE_FOR_PRS, MERGE_FOR_PRS => true
  | DEFAULT_BRANCH, DEFAULT_BRANCH => true
  | _, _ => false
  end.

(** Object spread with one overwritten key: [{...settings, key: v}]. *)
Definition with_needsApproval (v : bool) (s : Settings) : Settings :=
  mkSettings v (decryptEnvironmentVariables s) (configResolutionStrategy s)
             (additionalEnvironment s) (cacheVersion s) (oidcSubIncludeClaimKeys s).

Definition with_decryptEnvironmentVariables
           (v : DecryptEnvironmentVariablesFor) (s : Settings) : Settings :=
  mkSettings (needsApproval s) v (configResolutionStrategy s)
             (additionalEnvironment s) (cacheVersion s) (oidcSubIncludeClaimKeys s).

Definition with_configResolutionStrategy
           (v : ConfigResolutionStrategy) (s : Settings) : Settings :=
  mkSettings (needsApproval s) (decryptEnvironmentVariables s) v
             (additionalEnvironment s) (cacheVersion s) (oidcSubIncludeClaimKeys s).

Definition with_additionalEnvironment (v : list string) (s : Settings) : Settings :=
  mkSettings (needsApproval s) (decryptEnvironmentVariables s) (configResolutionStrategy s)
             v (cacheVersion s) (oidcSubIncludeClaimKeys s).

Definition with_cacheVersion (v : Z) (s : Settings) : Settings :=
  mkSettings (needsApproval s) (decryptEnvironmentVariables s) (configResolutionStrategy s)
             (additionalEnvironment s) v (oidcSubIncludeClaimKeys s).

Definition with_oidcSubIncludeClaimKeys (v : list string) (s : Settings) : Settings :=
  mkSettings (needsApproval s) (decryptEnvironmentVariables s) (configResolutionStrategy s)
             (additionalEnvironment s) (cacheVersion s) v.

(** *** State: the three [useState] cells and the console *)

Inductive LogEntry :=
| ConsoleLog (errors : list string)     (* console.log(errors)  *)
| ConsoleError (err : string).          (* console.error(err)   *)

Record State := mkState {
  initialSettings : Settings;
  settings : Settings;
  additionalEnvironmentToAdd : string;
  console : list LogEntry
}.

Definition setInitialSettings (v : Settings) (st : State) : State :=
  mkState v (settings st) (additionalEnvironmentToAdd st) (console st).

Definition setSettings (v : Settings) (st : State) : State :=
  mkState (initialSettings st) v (additionalEnvironmentToAdd st) (console st).

Definition setAdditionalEnvironmentToAdd (v : string) (st : State) : State :=
  mkState (initialSettings st) (settings st) v (console st).

Definition consolePrint (e : LogEntry) (st : State) : State :=
  mkState (initialSettings st) (settings st) (additionalEnvironmentToAdd st)
          (console st ++ [e])%list.

(** [useState(repository.settings)] twice, [useState('')]. *)
Definition init (repositorySettings : Settings) : State :=
  mkState repositorySettings repositorySettings "" [].

(** *** Event handlers

    A handler reads [settings], [initialSettings] and
    [additionalEnvironmentToAdd] from the render it was created in, the
    state [st], and calls the setters. *)

(** The keys [changeField] is applied to, with the type of the value the
    select of that key delivers in [event.target.value]. *)
Inductive SelectKey := decryptEnvironmentVariablesKey | configResolutionStrategyKey.

Definition SelectValue (field : SelectKey) : Type :=
  match field with
  | decryptEnvironmentVariablesKey => DecryptEnvironmentVariablesFor
  | configResolutionStrategyKey => ConfigResolutionStrategy
  end.

Definition changeField (field : SelectKey) : SelectValue field -> State -> State :=
  match field with
  | decryptEnvironmentVariablesKey => fun value st =>
      setSettings (with_decryptEnvironmentVariables value (settings st)) st
  | configResolutionStrategyKey => fun value st =>
      setSettings (with_configResolutionStrategy value (settings st)) st
  end.

Definition setClearCaches (checked : bool) (st : State) : State :=
  let cacheVersion' :=
    if checked then JS.numberAdd (cacheVersion (initialSettings st)) 1
    else cacheVersion (initialSettings st) in
  setSettings (with_cacheVersion cacheVersion' (settings st)) st.

(** The key [toggleField] is applied to. *)
Inductive ToggleKey := needsApprovalKey.

Definition toggleField (field : ToggleKey) (st : State) : State :=
  match field with
  | needsApprovalKey =>
      setSettings (with_needsApproval (negb (needsApproval (settings st))) (settings st)) st
  end.

Definition addNewEnvVariable (st : State) : State :=
  let st1 := setAdditionalEnvironmentToAdd "" st in
  setSettings
    (with_additionalEnvironment
       (JS.concat1 (JS.orEmpty (additionalEnvironment (settings st)))
                   (additionalEnvironmentToAdd st))
       (settings st))
    st1.

Definition deleteEnv (line : string) (st : State) : State :=
  setSettings
    (with_additionalEnvironment
       (JS.filter (fun value => JS.strictNe line value)
                  (JS.orEmpty (additionalEnvironment (settings st))))
       (settings st))
    st.

(** The [onChange] of the claim-keys input. *)
Definition oidcSubIncludeClaimKeysChange (value : string) (st : State) : State :=
  setSettings (with_oidcSubIncludeClaimKeys (JS.split JS.comma value) (settings st)) st.

(** The value the claim-keys input displays. *)
Definition oidcSubIncludeClaimKeysValue (st : State) : string :=
  JS.join JS.comma (oidcSubIncludeClaimKeys (settings st)).

(** The [onChange] of the new-environment-variable input. *)
Definition additionalEnvironmentToAddChange (value : string) (st : State) : State :=
  setAdditionalEnvironmentToAdd value st.

(** *** Saving *)

Record RepositorySettingsInput := mkInput {
  clientMutationId : string;
  repositoryId : string;
  input_needsApproval : bool;
  input_decryptEnvironmentVariables : DecryptEnvironmentVariablesFor;
  input_configResolutionStrategy : ConfigResolutionStrategy;
  input_additionalEnvironment : list string;
  input_cacheVersion : Z;
  input_oidcSubIncludeClaimKeys : list string
}.

Definition variables (repositoryId : string) (st : State) : RepositorySettingsInput :=
  mkInput ("save-settings-" ++ repositoryId) repositoryId
          (needsApproval (settings st))
          (decryptEnvironmentVariables (settings st))
          (configResolutionStrategy (settings st))
          (JS.concat0 (additionalEnvironment (settings st)))
          (cacheVersion (settings st))
          (JS.concat0 (oidcSubIncludeClaimKeys (settings st))).

(** What the mutation comes back with: the response and the [errors]
    argument of [onCompleted] ([None] is [null]), or the error of [onError]. *)
Inductive MutationResult :=
| Completed (response : Settings) (errors : option (list string))
| Failed (err : string).

(** [if (errors)]: an array is truthy, [null] is not. *)
Definition onCompleted (response : Settings) (errors : option (list string))
           (st : State) : State :=
  match errors with
  | Some errs => consolePrint (ConsoleLog errs) st
  | None => setInitialSettings response st
  end.

Definition onError (err : string) (st : State) : State :=
  consolePrint (ConsoleError err) st.

(** [commitSaveSettingsMutation]: the remote end, [remote], answers the
    request and the matching callback runs. *)
Definition commitSaveSettingsMutation
           (remote : RepositorySettingsInput -> MutationResult)
           (vars : RepositorySettingsInput) (st : State) : State :=
  match remote vars with
  | Completed response errors => onCompleted response errors st
  | Failed err => onError err st
  end.

Definition onSave (remote : RepositorySettingsInput -> MutationResult)
           (repositoryId : string) (st : State) : State :=
  commitSaveSettingsMutation remote (variables repositoryId st) st.

(** *** Derived values of a render *)

Definition areSettingsTheSame (settings initialSettings : Settings) : bool :=
  Bool.eqb (needsApproval settings) (needsApproval initialSettings)
  && strategyEq (configResolutionStrategy settings) (configResolutionStrategy initialSettings)
  && JS.strictEq (JS.stringify (additionalEnvironment settings))
                 (JS.stringify (additionalEnvironment initialSettings))
  && JS.strictEq (JS.stringify (oidcSubIncludeClaimKeys settings))
                 (JS.stringify (oidcSubIncludeClaimKeys initialSettings))
  && decryptEq (decryptEnvironmentVariables settings)
               (decryptEnvironmentVariables initialSettings)
  && (cacheVersion settings =? cacheVersion initialSettings)%Z.

(** The dirty check of the form: the negation of [areSettingsTheSame]. *)
Definition isDirty (saved draft : Settings) : bool :=
  negb (areSettingsTheSame draft saved).

(** [disabled] of the Save button. *)
Definition saveDisabled (st : State) : bool :=
  areSettingsTheSame (settings st) (initialSettings st).

(** [checked] of the clear-caches checkbox. *)
Definition clearCachesChecked (st : State) : bool :=
  negb (cacheVersion (initialSettings st) =? cacheVersion (settings st))%Z.

(** *** Local edits as events *)

Inductive Edit :=
| Toggle (field : ToggleKey)
| Change (field : SelectKey) (value : SelectValue field)
| ClearCaches (checked : bool)
| OidcInput (value : string)
| AddEnv
| DeleteEnv (line : string)
| PendingInput (value : string).

Definition applyEdit (st : State) (e : Edit) : State :=
  match e with
  | Toggle field => toggleField field st
  | Change field value => changeField field value st
  | ClearCaches checked => setClearCaches checked st
  | OidcInput value => oidcSubIncludeClaimKeysChange value st
  | AddEnv => addNewEnvVariable st
  | DeleteEnv line => deleteEnv line st
  | PendingInput value => additionalEnvironmentToAddChange value st
  end.

Definition applyEdits (st : State) (es : list Edit) : State :=
  fold_left applyEdit es st.

(** The six keys of a snapshot and the value under each. *)
Inductive Key :=
| K_needsApproval | K_decryptEnvironmentVariables | K_configResolutionStrategy
| K_additionalEnvironment | K_cacheVersion | K_oidcSubIncludeClaimKeys.

Inductive Value :=
| VBool (b : bool)
| VDecrypt (d : DecryptEnvironmentVariablesFor)
| VStrategy (c : ConfigResolutionStrategy)
| VStrings (l : list string)
| VInt (z : Z).

Definition get (k : Key) (s : Settings) : Value :=
  match k with
  | K_needsApproval => VBool (needsApproval s)
  | K_decryptEnvironmentVariables => VDecrypt (decryptEnvironmentVariables s)
  | K_configResolutionStrategy => VStrategy (configResolutionStrategy s)
  | K_additionalEnvironment => VStrings (additionalEnvironment s)
  | K_cacheVersion => VInt (cacheVersion s)
  | K_oidcSubIncludeClaimKeys => VStrings (oidcSubIncludeClaimKeys s)
  end.

(** The key an edit writes in the object it passes to [setSettings]. *)
Definition target (e : Edit) : option Key :=
  match e with
  | Toggle needsApprovalKey => Some K_needsApproval
  | Change decryptEnvironmentVariablesKey _ => Some K_decryptEnvironmentVariables
  | Change configResolutionStrategyKey _ => Some K_configResolutionStrategy
  | ClearCaches _ => Some K_cacheVersion
  | OidcInput _ => Some K_oidcSubIncludeClaimKeys
  | AddEnv => Some K_additionalEnvironment
  | DeleteEnv _ => Some K_additionalEnvironment
  | PendingInput _ => None
  end.

End RepositorySettings.

Import RepositorySettings.

(* ================================================================= *)
(** ** Auxiliary definitions of the proofs *)

(** The elements after the first, each behind its comma, then the bracket. *)
Fixpoint stringifyTail (a : list string) : string :=
  match a with
  | [] => "]"
  | x :: a' => "," ++ JS.QuoteJSONString x ++ stringifyTail a'
  end.

(** The number of occurrences of a character. *)
Fixpoint countChar (sep : ascii) (s : string) : nat :=
  match s with
  | "" => 0
  | String c r => (if (c =? sep)%char then 1 else 0) + countChar sep r
  end.

(** The console entry of a save that fails: an [errors] array handed to
    [onCompleted], or the error handed to [onError]. *)
Definition failureEntry (r : MutationResult) : option LogEntry :=
  match r with
  | Completed _ (Some errs) => Some (ConsoleLog errs)
  | Completed _ None => None
  | Failed err => Some (ConsoleError err)
  end.

(** A snapshot, and a remote end that answers with what it was sent except
    that empty claim keys are dropped. *)
Definition sampleSettings : Settings :=
  mkSettings false USERS_WITH_WRITE_PERMISSIONS SAME_SHA [] 3 [].

Definition dropEmptyKeys (vars : RepositorySettingsInput) : MutationResult :=
  Completed
    (mkSettings (input_needsApproval vars)
                (input_decryptEnvironmentVariables vars)
                (input_configResolutionStrategy vars)
                (input_additionalEnvironment vars)
                (input_cacheVersion vars)
                (List.filter (fun k => negb (k =? "")%string)
                             (input_oidcSubIncludeClaimKeys vars)))
    None.

(** Remote ends that fail: one with an error list, one in the transport. *)
Definition rejecting (vars : RepositorySettingsInput) : MutationResult :=
  Completed sampleSettings (Some ["forbidden"]).

Definition unreachable (vars : RepositorySettingsInput) : MutationResult :=
  Failed "network".

(** The draft after approval was switched on and the claim-keys input was
    emptied. *)
Definition sampleEdited : State :=
  oidcSubIncludeClaimKeysChange "" (toggleField needsApprovalKey (init sampleSettings)).

(* ================================================================= *)
(** ** The rendered list of environment lines *)

(** One [ListItem] of the list of overrides: its React [key], the text it
    shows and the edit its delete button performs. *)
Record EnvironmentItem := mkItem {
  itemKey : string;
  primary : string;
  onClick : Edit
}.

(** [settings.additionalEnvironment.length > 0 && (... .map(line => ...))]:
    the elements a render returns, none for an empty sequence and one per
    line otherwise.  The key of an element is its line: when the lines are
    pairwise distinct so are the keys, and the items on the page are these
    elements. *)
Definition environmentOverrides (st : State) : option (list EnvironmentItem) :=
  if (0 <? List.length (additionalEnvironment (settings st)))%nat
  then Some (map (fun line => mkItem line line (DeleteEnv line))
                 (additionalEnvironment (settings st)))
  else None.

(** Pressing the delete button of the first element of a render, at most
    [n] times, each time in the render of the state reached. *)
Fixpoint clickFirstDelete (n : nat) (st : State) : State :=
  match n with
  | O => st
  | S n' =>
      match environmentOverrides st with
      | Some (item :: _) => clickFirstDelete n' (applyEdit st (onClick item))
      | _ => st
      end
  end.

(* ================================================================= *)
(** ** Auxiliary definitions of the further properties *)

(** The snapshot a request carries. *)
Definition settingsOfInput (vars : RepositorySettingsInput) : Settings :=
  mkSettings (input_needsApproval vars)
             (input_decryptEnvironmentVariables vars)
             (input_configResolutionStrategy vars)
             (input_additionalEnvironment vars)
             (input_cacheVersion vars)
             (input_oidcSubIncludeClaimKeys vars).

(** The draft's cache version is the saved one or the sum of the saved
    one and 1. *)
Definition cacheVersionInv (st : State) : Prop :=
  cacheVersion (settings st) = cacheVersion (initialSettings st)
  \/ cacheVersion (settings st) = JS.numberAdd (cacheVersion (initialSettings st)) 1.

(** A safe integer: of magnitude below 2^53. *)
Definition safeInteger (v : Z) : Prop := (Z.abs v < 2 ^ 53)%Z.

Definition isClearCaches (e : Edit) : bool :=
  match e with
  | ClearCaches _ => true
  | _ => false
  end.

(** A form with two committed environment lines. *)
Definition sampleDistinctEnv : State :=
  applyEdits (init sampleSettings)
             [PendingInput "A=1"; AddEnv; PendingInput "B=2"; AddEnv].

(** A form with two committed environment lines, one of them twice. *)
Definition sampleWithEnv : State :=
  applyEdits (init sampleSettings)
             [PendingInput "A=1"; AddEnv; PendingInput "B=2"; AddEnv;
              PendingInput "A=1"; AddEnv].

(* ================================================================= *)
(** ** Lemmas on the built-ins *)

Lemma append_assoc (a b c : string) : (a ++ b) ++ c = a ++ (b ++ c).
Proof.
  induction a as [|x a IH]; simpl; [reflexivity | now rewrite IH].
Qed.

(** Every escape can be read back, whatever follows it. *)
Lemma unescape_escapeChar (c : ascii) (r : string) :
  JS.unescape (JS.escapeChar c ++ r) = Some (c, r).
Proof.
  destruct c as [[] [] [] [] [] [] [] []]; reflexivity.
Qed.

(** The escaped body followed by the closing quote is a prefix code. *)
Lemma escapeBody_prefix (a : string) :
  forall b r r',
    JS.escapeBody a ++ String JS.dquote r = JS.escapeBody b ++ String JS.dquote r' ->
    a = b /\ r = r'.
Proof.
  induction a as [|c a IH]; intros [|c' b] r r' H; simpl in H.
  - injection H as ->. split; reflexivity.
  - rewrite append_assoc in H. apply (f_equal JS.unescape) in H.
    rewrite unescape_escapeChar in H. discriminate H.
  - rewrite append_assoc in H. apply (f_equal JS.unescape) in H.
    rewrite unescape_escapeChar in H. discriminate H.
  - rewrite !append_assoc in H. apply (f_equal JS.unescape) in H.
    rewrite !unescape_escapeChar in H. injection H as -> H.
    destruct (IH _ _ _ H) as [-> ->]. split; reflexivity.
Qed.

Lemma QuoteJSONString_prefix (a b r r' : string) :
  JS.QuoteJSONString a ++ r = JS.QuoteJSONString b ++ r' -> a = b /\ r = r'.
Proof.
  unfold JS.QuoteJSONString. simpl. rewrite !append_assoc. simpl.
  intros H. injection H as H. now apply escapeBody_prefix in H.
Qed.

Lemma concat_QuoteJSONString_tail (x : string) (a : list string) :
  String.concat "," (map JS.QuoteJSONString (x :: a)) ++ "]"
  = JS.QuoteJSONString x ++ stringifyTail a.
Proof.
  revert x. induction a as [|y a IH]; intros x.
  - reflexivity.
  - change (String.concat "," (map JS.QuoteJSONString (x :: y :: a)))
      with (JS.QuoteJSONString x ++ "," ++ String.concat "," (map JS.QuoteJSONString (y :: a))).
    rewrite !append_assoc. rewrite IH. reflexivity.
Qed.

Lemma String_tail_eq (c : ascii) (a b : string) : String c a = String c b -> a = b.
Proof. intros H. injection H as H. exact H. Qed.

Lemma stringifyTail_cons (x : string) (a : list string) :
  stringifyTail (x :: a) = String JS.comma (JS.QuoteJSONString x ++ stringifyTail a).
Proof. reflexivity. Qed.

Lemma QuoteJSONString_head (x r : string) :
  exists t, JS.QuoteJSONString x ++ r = String JS.dquote t.
Proof. eexists. reflexivity. Qed.

Lemma stringifyTail_inj (a : list string) :
  forall b, stringifyTail a = stringifyTail b -> a = b.
Proof.
  induction a as [|x a IH]; intros [|y b] H.
  - reflexivity.
  - discriminate H.
  - discriminate H.
  - rewrite !stringifyTail_cons in H. apply String_tail_eq in H.
    apply QuoteJSONString_prefix in H. destruct H as [-> H].
    f_equal. now apply IH.
Qed.

Lemma stringify_cons (x : string) (a : list string) :
  JS.stringify (x :: a) = String "[" (JS.QuoteJSONString x ++ stringifyTail a).
Proof.
  unfold JS.stringify. rewrite concat_QuoteJSONString_tail. reflexivity.
Qed.

(** [JSON.stringify] separates arrays of strings. *)
Lemma stringify_inj (a b : list string) :
  JS.stringify a = JS.stringify b -> a = b.
Proof.
  destruct a as [|x a], b as [|y b]; intros H.
  - reflexivity.
  - rewrite stringify_cons in H.
    destruct (QuoteJSONString_head y (stringifyTail b)) as [t Ht].
    rewrite Ht in H. discriminate H.
  - rewrite stringify_cons in H.
    destruct (QuoteJSONString_head x (stringifyTail a)) as [t Ht].
    rewrite Ht in H. discriminate H.
  - rewrite !stringify_cons in H. apply String_tail_eq in H.
    apply QuoteJSONString_prefix in H. destruct H as [-> H].
    f_equal. now apply stringifyTail_inj.
Qed.

Lemma stringify_eqb (a b : list string) :
  JS.strictEq (JS.stringify a) (JS.stringify b) = true <-> a = b.
Proof.
  unfold JS.strictEq. rewrite String.eqb_eq. split.
  - apply stringify_inj.
  - now intros ->.
Qed.

(** Integers of magnitude up to 2^53 are binary64 values, so a sum in that
    range is exact. *)
Section Binary64.
Local Open Scope Z_scope.

Lemma digits2_pos_lower (p : positive) : 2 ^ (Zpos (digits2_pos p) - 1) <= Zpos p.
Proof.
  induction p as [p IH|p IH|]; simpl digits2_pos.
  - rewrite Pos2Z.inj_succ. replace (Z.succ (Zpos (digits2_pos p)) - 1) with (Z.succ (Zpos (digits2_pos p) - 1)) by lia.
    rewrite Z.pow_succ_r by lia. lia.
  - rewrite Pos2Z.inj_succ. replace (Z.succ (Zpos (digits2_pos p)) - 1) with (Z.succ (Zpos (digits2_pos p) - 1)) by lia.
    rewrite Z.pow_succ_r by lia. lia.
  - simpl. lia.
Qed.

Lemma digits2_pos_le_53 (p : positive) : Zpos p < 2 ^ 53 -> Zpos (digits2_pos p) <= 53.
Proof.
  intros H. pose proof (digits2_pos_lower p) as Hl.
  destruct (Z_le_gt_dec (Zpos (digits2_pos p)) 53) as [Hle|Hgt]; [exact Hle|].
  assert (2 ^ 53 <= 2 ^ (Zpos (digits2_pos p) - 1)) by (apply Z.pow_le_mono_r; lia).
  lia.
Qed.

Lemma iter_xO_value (p k : positive) : Zpos (Pos.iter xO p k) = Zpos p * 2 ^ Zpos k.
Proof.
  induction k as [|k IH] using Pos.peano_ind.
  - simpl. lia.
  - rewrite Pos.iter_succ, Pos2Z.inj_xO, IH, Pos2Z.inj_succ, Z.pow_succ_r by lia. lia.
Qed.

Lemma iter_xO_digits (p k : positive) :
  Zpos (digits2_pos (Pos.iter xO p k)) = Zpos (digits2_pos p) + Zpos k.
Proof.
  induction k as [|k IH] using Pos.peano_ind.
  - simpl. lia.
  - rewrite Pos.iter_succ. simpl digits2_pos. rewrite !Pos2Z.inj_succ, IH. lia.
Qed.

Lemma binary_round_aux_canonical (s : bool) (m : positive) (e : Z) :
  fexp 53 1024 (Zpos (digits2_pos m) + e) = e -> e <= 971 ->
  binary_round_aux 53 1024 s (Zpos m) e loc_Exact = S754_finite s m e.
Proof.
  intros Hc He.
  unfold binary_round_aux, shr_fexp. simpl Zdigits2. rewrite Hc, Z.sub_diag.
  cbn [shr shr_record_of_loc shr_m loc_of_shr_record round_nearest_even Zdigits2].
  rewrite Hc, Z.sub_diag. simpl.
  destruct (Z.leb_spec e 971); [reflexivity | lia].
Qed.

Lemma binary_round_exact (s : bool) (p : positive) :
  Zpos p < 2 ^ 53 ->
  JS.integerValue (binary_round 53 1024 s p 0) = cond_Zopp s (Zpos p).
Proof.
  intros Hp. pose proof (digits2_pos_le_53 p Hp) as Hd.
  unfold binary_round, shl_align.
  assert (Hf : fexp 53 1024 (Zpos (digits2_pos p) + 0) = Zpos (digits2_pos p) - 53).
  { unfold fexp, emin. lia. }
  rewrite Hf.
  destruct (Zpos (digits2_pos p) - 53 - 0) as [|k|k] eqn:Ek.
  - rewrite binary_round_aux_canonical; [simpl; f_equal; lia | rewrite Hf; lia | lia].
  - lia.
  - rewrite binary_round_aux_canonical.
    + replace (Zpos (digits2_pos p) - 53) with (Zneg k) by lia.
      unfold JS.integerValue. rewrite iter_xO_value. f_equal.
      apply Z.div_mul. apply Z.pow_nonzero; lia.
    + rewrite iter_xO_digits. unfold fexp, emin. lia.
    + lia.
Qed.

Lemma toBinary64_exact (z : Z) : Z.abs z <= 2 ^ 53 -> JS.integerValue (JS.toBinary64 z) = z.
Proof.
  intros H. destruct (Z.eq_dec (Z.abs z) (2 ^ 53)) as [E|E].
  - destruct (Z.abs_eq_or_opp z) as [A|A]; rewrite A in E.
    + subst z. vm_compute. reflexivity.
    + assert (z = - 2 ^ 53) by lia. subst z. vm_compute. reflexivity.
  - destruct z as [|p|p]; unfold JS.toBinary64, binary_normalize.
    + reflexivity.
    + rewrite binary_round_exact; [reflexivity | simpl in *; lia].
    + rewrite binary_round_exact; [reflexivity | simpl in *; lia].
Qed.

Lemma numberAdd_safe (v : Z) : Z.abs v < 2 ^ 53 -> JS.numberAdd v 1 = v + 1.
Proof. intros H. apply toBinary64_exact. lia. Qed.

Lemma numberAdd_differs (v : Z) : Z.abs v < 2 ^ 53 -> JS.numberAdd v 1 <> v.
Proof. intros H. rewrite (numberAdd_safe v H). lia. Qed.

(** Above that range a sum is rounded, as the addition of the
    floating-point specification on the operands rounds it. *)
Lemma numberAdd_rounds :
  JS.numberAdd (2 ^ 53) 1 = 2 ^ 53
  /\ JS.numberAdd (2 ^ 53 + 2) 1 = 2 ^ 53 + 4
  /\ forallb (fun v => JS.numberAdd v 1 =? JS.numberAddOperands v 1)
        [0; 3; -1; -2; 2 ^ 52; 2 ^ 53 - 1; 2 ^ 53; 2 ^ 53 + 2; 2 ^ 53 + 4; 2 ^ 53 + 6;
         - 2 ^ 53; - 2 ^ 53 - 2; - 2 ^ 53 - 4; 2 ^ 54 - 2; 2 ^ 54; 2 ^ 54 + 4; 2 ^ 60;
         2 ^ 1024 - 2 ^ 971; - (2 ^ 1024 - 2 ^ 971)] = true.
Proof. repeat split; vm_compute; reflexivity. Qed.

End Binary64.

(** [split] is the inverse of [join] on the same separator, and its segments
    are free of the separator: together these two facts determine it. *)
Lemma split_not_nil (sep : ascii) (s : string) : JS.split sep s <> [].
Proof.
  destruct s as [|c r]; simpl; [discriminate|].
  destruct (c =? sep)%char; [discriminate|].
  destruct (JS.split sep r); discriminate.
Qed.

Lemma join_split (sep : ascii) (s : string) : JS.join sep (JS.split sep s) = s.
Proof.
  unfold JS.join. induction s as [|c r IH]; simpl; [reflexivity|].
  destruct (Ascii.eqb_spec c sep) as [->|Hne].
  - destruct (JS.split sep r) as [|seg segs] eqn:E.
    + now apply split_not_nil in E.
    + simpl. f_equal. exact IH.
  - destruct (JS.split sep r) as [|seg segs] eqn:E.
    + now apply split_not_nil in E.
    + destruct segs; simpl in *; now rewrite IH.
Qed.

Lemma split_segments (sep : ascii) (s : string) :
  Forall (fun seg => countChar sep seg = 0) (JS.split sep s).
Proof.
  induction s as [|c r IH]; simpl.
  - constructor; [reflexivity | constructor].
  - destruct (c =? sep)%char eqn:Ec.
    + constructor; [reflexivity | exact IH].
    + destruct (JS.split sep r) as [|seg segs].
      * constructor; [simpl; now rewrite Ec | constructor].
      * inversion IH; subst. constructor; [simpl; now rewrite Ec | assumption].
Qed.

Lemma split_length (sep : ascii) (s : string) :
  List.length (JS.split sep s) = S (countChar sep s).
Proof.
  induction s as [|c r IH]; simpl; [reflexivity|].
  destruct (c =? sep)%char.
  - simpl. now rewrite IH.
  - destruct (JS.split sep r) as [|seg segs]; simpl in *; lia.
Qed.

(* ================================================================= *)
(** ** Lemmas on the component *)

Lemma decryptEq_true (a b : DecryptEnvironmentVariablesFor) :
  decryptEq a b = true <-> a = b.
Proof. destruct a, b; simpl; split; intros H; try reflexivity; discriminate H. Qed.

Lemma strategyEq_true (a b : ConfigResolutionStrategy) :
  strategyEq a b = true <-> a = b.
Proof. destruct a, b; simpl; split; intros H; try reflexivity; discriminate H. Qed.

(** The comparison of a render holds exactly on equal snapshots. *)
Lemma areSettingsTheSame_true (a b : Settings) :
  areSettingsTheSame a b = true <-> a = b.
Proof.
  unfold areSettingsTheSame.
  rewrite !andb_true_iff, Bool.eqb_true_iff, strategyEq_true, !stringify_eqb,
    decryptEq_true, Z.eqb_eq.
  destruct a, b; simpl. split.
  - intros [[[[[-> ->] ->] ->] ->] ->]. reflexivity.
  - intros H. injection H as -> -> -> -> -> ->. repeat split.
Qed.

Lemma filter_strictNe_remove (line : string) (l : list string) :
  JS.filter (fun value => JS.strictNe line value) l = remove string_dec line l.
Proof.
  unfold JS.filter, JS.strictNe. induction l as [|y l IH]; simpl; [reflexivity|].
  destruct (string_dec line y) as [->|Hne].
  - rewrite String.eqb_refl. simpl. exact IH.
  - apply String.eqb_neq in Hne. rewrite Hne. simpl. now rewrite IH.
Qed.

Lemma applyEdit_initialSettings (st : State) (e : Edit) :
  initialSettings (applyEdit st e) = initialSettings st.
Proof.
  destruct e as [[]|[] v| | | | |]; reflexivity.
Qed.

(* ================================================================= *)
(** ** Properties of the specification *)

(** C1, as stated, fails: after a save that completes without errors the
    saved snapshot is the server's value, but the draft is not: here the
    server dropped the empty claim key and the draft still holds it. *)
Lemma onSave_draft_not_synchronized :
  dropEmptyKeys (variables "R1" sampleEdited)
    = Completed (with_needsApproval true sampleSettings) None
  /\ initialSettings (onSave dropEmptyKeys "R1" sampleEdited)
    = with_needsApproval true sampleSettings
  /\ settings (onSave dropEmptyKeys "R1" sampleEdited)
    <> with_needsApproval true sampleSettings.
Proof.
  repeat split. intros H. discriminate H.
Qed.

(** C1 (amended): on a save that completes without errors the saved
    snapshot becomes the settings value the server returned; the draft, the
    pending line and the console are left as they were, so the draft equals
    the new saved snapshot exactly when the server returned the draft. *)
Theorem onSave_success
        (remote : RepositorySettingsInput -> MutationResult)
        (repositoryId : string) (st : State) (response : Settings) :
  remote (variables repositoryId st) = Completed response None ->
  initialSettings (onSave remote repositoryId st) = response
  /\ settings (onSave remote repositoryId st) = settings st
  /\ additionalEnvironmentToAdd (onSave remote repositoryId st)
     = additionalEnvironmentToAdd st
  /\ console (onSave remote repositoryId st) = console st
  /\ (settings (onSave remote repositoryId st)
      = initialSettings (onSave remote repositoryId st)
      <-> settings st = response).
Proof.
  intros H. unfold onSave, commitSaveSettingsMutation. rewrite H. simpl.
  repeat split; intros E; exact E.
Qed.

Lemma onSave_success_witness :
  dropEmptyKeys (variables "R1" sampleEdited)
    = Completed (with_needsApproval true sampleSettings) None
  /\ initialSettings (onSave dropEmptyKeys "R1" sampleEdited)
     = with_needsApproval true sampleSettings.
Proof.
  split.
  - reflexivity.
  - exact (proj1 (onSave_success dropEmptyKeys "R1" sampleEdited
                    (with_needsApproval true sampleSettings) eq_refl)).
Defined.

(** C2: a save that fails, by an error list in the response or by a
    transport error, only prints the error: saved snapshot, draft and
    pending line are what they were before the call. *)
Theorem onSave_failure_atomic
        (remote : RepositorySettingsInput -> MutationResult)
        (repositoryId : string) (st : State) (entry : LogEntry) :
  failureEntry (remote (variables repositoryId st)) = Some entry ->
  initialSettings (onSave remote repositoryId st) = initialSettings st
  /\ settings (onSave remote repositoryId st) = settings st
  /\ additionalEnvironmentToAdd (onSave remote repositoryId st)
     = additionalEnvironmentToAdd st
  /\ console (onSave remote repositoryId st) = (console st ++ [entry])%list.
Proof.
  unfold onSave, commitSaveSettingsMutation.
  destruct (remote (variables repositoryId st)) as [response [errs|]|err];
    simpl; intros H; try discriminate H; injection H as <-; repeat split.
Qed.

Lemma onSave_failure_atomic_witness :
  (failureEntry (rejecting (variables "R1" sampleEdited)) = Some (ConsoleLog ["forbidden"])
   /\ settings (onSave rejecting "R1" sampleEdited) = settings sampleEdited)
  /\ (failureEntry (unreachable (variables "R1" sampleEdited)) = Some (ConsoleError "network")
      /\ initialSettings (onSave unreachable "R1" sampleEdited) = sampleSettings).
Proof.
  split; split.
  - reflexivity.
  - exact (proj1 (proj2 (onSave_failure_atomic rejecting "R1" sampleEdited
                           (ConsoleLog ["forbidden"]) eq_refl))).
  - reflexivity.
  - exact (proj1 (onSave_failure_atomic unreachable "R1" sampleEdited
                    (ConsoleError "network") eq_refl)).
Defined.

(** C3: [isDirty saved draft] is false exactly when the six fields agree,
    the two sequences as whole ordered sequences; two different lines in
    swapped order make the snapshots dirty. *)
Theorem isDirty_false_iff (saved draft : Settings) :
  (isDirty saved draft = false <->
     needsApproval saved = needsApproval draft
     /\ configResolutionStrategy saved = configResolutionStrategy draft
     /\ decryptEnvironmentVariables saved = decryptEnvironmentVariables draft
     /\ cacheVersion saved = cacheVersion draft
     /\ additionalEnvironment saved = additionalEnvironment draft
     /\ oidcSubIncludeClaimKeys saved = oidcSubIncludeClaimKeys draft)
  /\ (forall a b : string,
        isDirty (with_additionalEnvironment [a; b] saved)
                (with_additionalEnvironment [b; a] saved) = negb (a =? b)%string
        /\ isDirty (with_oidcSubIncludeClaimKeys [a; b] saved)
                   (with_oidcSubIncludeClaimKeys [b; a] saved) = negb (a =? b)%string).
Proof.
  assert (Hiff : forall s d, isDirty s d = false <-> d = s).
  { intros s d. unfold isDirty. rewrite negb_false_iff. apply areSettingsTheSame_true. }
  split.
  - rewrite Hiff. destruct saved, draft; simpl. split.
    + intros H. injection H as -> -> -> -> -> ->. repeat split.
    + intros (-> & -> & -> & -> & -> & ->). reflexivity.
  - intros a b. destruct (String.eqb_spec a b) as [->|Hne]; simpl.
    + split; apply Hiff; reflexivity.
    + split.
      * destruct (isDirty _ _) eqn:E; [reflexivity|].
        apply Hiff in E. injection E as E _. now elim Hne.
      * destruct (isDirty _ _) eqn:E; [reflexivity|].
        apply Hiff in E. injection E as E _. now elim Hne.
Qed.

(** C4: a snapshot is never dirty against itself, and with the draft equal
    to the saved snapshot the Save button is disabled. *)
Theorem isDirty_same (S : Settings) :
  isDirty S S = false
  /\ (forall (pending : string) (out : list LogEntry),
        saveDisabled (mkState S S pending out) = true)
  /\ (forall st : State, saveDisabled st = negb (isDirty (initialSettings st) (settings st))).
Proof.
  assert (H : areSettingsTheSame S S = true) by now apply areSettingsTheSame_true.
  unfold isDirty, saveDisabled. simpl. rewrite H. repeat split.
  intros st. now rewrite negb_involutive.
Qed.

(** C5: checking the clear-caches box sets the draft's cache version to
    the sum of the saved one and 1, unchecking sets it to the saved one, so
    checking and then unchecking restores it; the box shows whether the two
    versions differ.  The sum is the one of JavaScript numbers: for a saved
    version that is a safe integer it is the saved version plus one, and the
    box then shows checked. *)
Theorem setClearCaches_spec (st : State) :
  cacheVersion (settings (setClearCaches true st))
    = JS.numberAdd (cacheVersion (initialSettings st)) 1
  /\ cacheVersion (settings (setClearCaches false st)) = cacheVersion (initialSettings st)
  /\ cacheVersion (settings (setClearCaches false (setClearCaches true st)))
     = cacheVersion (initialSettings st)
  /\ clearCachesChecked st
     = negb (cacheVersion (settings st) =? cacheVersion (initialSettings st))%Z
  /\ clearCachesChecked (setClearCaches false (setClearCaches true st)) = false
  /\ (safeInteger (cacheVersion (initialSettings st)) ->
      cacheVersion (settings (setClearCaches true st))
        = (cacheVersion (initialSettings st) + 1)%Z
      /\ clearCachesChecked (setClearCaches true st) = true).
Proof.
  unfold clearCachesChecked. simpl.
  split; [reflexivity|]. split; [reflexivity|]. split; [reflexivity|].
  split; [now rewrite Z.eqb_sym|]. split; [apply negb_false_iff, Z.eqb_refl|].
  intros Hsafe. split.
  - apply numberAdd_safe, Hsafe.
  - apply negb_true_iff, Z.eqb_neq. intros E. symmetry in E.
    revert E. apply numberAdd_differs, Hsafe.
Qed.

Lemma setClearCaches_spec_witness :
  safeInteger (cacheVersion (initialSettings sampleEdited))
  /\ cacheVersion (settings (setClearCaches true sampleEdited)) = 4%Z
  /\ clearCachesChecked (setClearCaches true sampleEdited) = true.
Proof.
  assert (Hsafe : safeInteger (cacheVersion (initialSettings sampleEdited)))
    by reflexivity.
  split; [exact Hsafe|].
  exact (proj2 (proj2 (proj2 (proj2 (proj2 (setClearCaches_spec sampleEdited))))) Hsafe).
Defined.

(** C6: an edit of the claim-keys input stores the raw text split at every
    comma, untrimmed and with its empty segments: the segments joined by
    commas give the text back, none holds a comma, and there is one more
    segment than commas in the text. *)
Theorem oidcSubIncludeClaimKeysChange_split :
  (forall (value : string) (st : State),
      oidcSubIncludeClaimKeys (settings (oidcSubIncludeClaimKeysChange value st))
        = JS.split JS.comma value
      /\ oidcSubIncludeClaimKeysValue (oidcSubIncludeClaimKeysChange value st) = value
      /\ Forall (fun seg => countChar JS.comma seg = 0)
                (oidcSubIncludeClaimKeys (settings (oidcSubIncludeClaimKeysChange value st)))
      /\ List.length (oidcSubIncludeClaimKeys (settings (oidcSubIncludeClaimKeysChange value st)))
         = S (countChar JS.comma value))
  /\ JS.split JS.comma "a,b,c" = ["a"; "b"; "c"]
  /\ JS.split JS.comma "" = [""]
  /\ JS.split JS.comma "a," = ["a"; ""]
  /\ JS.split JS.comma " a ,,b " = [" a "; ""; "b "].
Proof.
  split; [|repeat split].
  intros value st. unfold oidcSubIncludeClaimKeysValue. simpl.
  split; [reflexivity|]. split; [apply join_split|].
  split; [apply split_segments | apply split_length].
Qed.

(** C7: deleting a line removes every occurrence of it from the draft's
    environment lines and keeps the others in order; so committing a line
    and then deleting it gives the earlier lines without any occurrence of
    the line, which is the earlier sequence exactly when the line did not
    occur in it. *)
Theorem deleteEnv_after_addNewEnvVariable (st : State) :
  (forall line : string,
      additionalEnvironment (settings (deleteEnv line st))
        = remove string_dec line (additionalEnvironment (settings st))
      /\ ~ In line (additionalEnvironment (settings (deleteEnv line st))))
  /\ additionalEnvironment
       (settings (deleteEnv (additionalEnvironmentToAdd st) (addNewEnvVariable st)))
     = remove string_dec (additionalEnvironmentToAdd st)
              (additionalEnvironment (settings st))
  /\ (additionalEnvironment
        (settings (deleteEnv (additionalEnvironmentToAdd st) (addNewEnvVariable st)))
      = additionalEnvironment (settings st)
      <-> ~ In (additionalEnvironmentToAdd st) (additionalEnvironment (settings st))).
Proof.
  assert (Hdel : forall line s,
             additionalEnvironment (settings (deleteEnv line s))
             = remove string_dec line (additionalEnvironment (settings s))).
  { intros line s. simpl. apply filter_strictNe_remove. }
  assert (Hadd : additionalEnvironment
                   (settings (deleteEnv (additionalEnvironmentToAdd st) (addNewEnvVariable st)))
                 = remove string_dec (additionalEnvironmentToAdd st)
                          (additionalEnvironment (settings st))).
  { rewrite Hdel. simpl. unfold JS.concat1, JS.orEmpty.
    rewrite remove_app. simpl.
    destruct (string_dec (additionalEnvironmentToAdd st) (additionalEnvironmentToAdd st))
      as [_|Hne]; [apply app_nil_r | now elim Hne]. }
  split; [|split].
  - intros line. split; [apply Hdel|]. rewrite Hdel. apply remove_In.
  - exact Hadd.
  - rewrite Hadd. split.
    + intros E Hin. rewrite <- E in Hin. revert Hin. apply remove_In.
    + apply notin_remove.
Qed.

(** C8: no local edit touches the saved snapshot, whatever the sequence of
    edits. *)
Theorem applyEdits_initialSettings (es : list Edit) (st : State) :
  initialSettings (applyEdits st es) = initialSettings st.
Proof.
  unfold applyEdits. revert st.
  induction es as [|e es IH]; intros st; simpl; [reflexivity|].
  rewrite IH. apply applyEdit_initialSettings.
Qed.

(** C9: an edit leaves every field of the draft other than its target as
    it was. *)
Theorem applyEdit_frame (e : Edit) (st : State) (k : Key) :
  target e <> Some k ->
  get k (settings (applyEdit st e)) = get k (settings st).
Proof.
  intros H.
  destruct e as [[]|[] v| | | | |], k; try reflexivity; now elim H.
Qed.

Lemma applyEdit_frame_witness :
  target (DeleteEnv "A=1") <> Some K_cacheVersion
  /\ get K_cacheVersion (settings (applyEdit sampleEdited (DeleteEnv "A=1")))
     = get K_cacheVersion (settings sampleEdited).
Proof.
  assert (H : target (DeleteEnv "A=1") <> Some K_cacheVersion)
    by (intros E; discriminate E).
  split; [exact H | exact (applyEdit_frame (DeleteEnv "A=1") sampleEdited K_cacheVersion H)].
Defined.

(** C10: committing the pending line appends exactly that string, the
    empty one included, to the end of the draft's environment lines and
    empties the pending line. *)
Theorem addNewEnvVariable_spec (st : State) :
  additionalEnvironment (settings (addNewEnvVariable st))
    = (additionalEnvironment (settings st) ++ [additionalEnvironmentToAdd st])%list
  /\ additionalEnvironmentToAdd (addNewEnvVariable st) = ""
  /\ (forall S : Settings,
        additionalEnvironment (settings (addNewEnvVariable (init S)))
        = (additionalEnvironment S ++ [""])%list)
  /\ (forall value : string,
        additionalEnvironment
          (settings (addNewEnvVariable (additionalEnvironmentToAddChange value st)))
        = (additionalEnvironment (settings st) ++ [value])%list).
Proof.
  repeat split.
Qed.

(* ================================================================= *)
(** ** Further properties of the component *)

Lemma State_eta (st : State) :
  mkState (initialSettings st) (settings st) (additionalEnvironmentToAdd st) (console st) = st.
Proof. destruct st; reflexivity. Qed.

Lemma Settings_eta (s : Settings) :
  mkSettings (needsApproval s) (decryptEnvironmentVariables s) (configResolutionStrategy s)
             (additionalEnvironment s) (cacheVersion s) (oidcSubIncludeClaimKeys s) = s.
Proof. destruct s; reflexivity. Qed.

(** The request carries the draft, field for field. *)
Lemma settingsOfInput_variables (repositoryId : string) (st : State) :
  settingsOfInput (variables repositoryId st) = settings st.
Proof.
  unfold settingsOfInput, variables, JS.concat0. simpl.
  rewrite !app_nil_r. apply Settings_eta.
Qed.

Lemma applyEdit_consolePrint (entry : LogEntry) (st : State) (e : Edit) :
  applyEdit (consolePrint entry st) e = consolePrint entry (applyEdit st e).
Proof. destruct e as [[]|[] v| | | | |]; reflexivity. Qed.

Lemma applyEdit_setInitialSettings (r : Settings) (st : State) (e : Edit) :
  isClearCaches e = false ->
  applyEdit (setInitialSettings r st) e = setInitialSettings r (applyEdit st e).
Proof. destruct e as [[]|[] v| | | | |]; intros H; try reflexivity; discriminate H. Qed.

(** X1: when the remote end answers with the snapshot it was sent, the
    save leaves a clean form: the saved snapshot is the draft, the Save
    button is disabled and the clear-caches box is unchecked. *)
Theorem onSave_echo_clean
        (remote : RepositorySettingsInput -> MutationResult)
        (repositoryId : string) (st : State) :
  remote (variables repositoryId st)
    = Completed (settingsOfInput (variables repositoryId st)) None ->
  initialSettings (onSave remote repositoryId st) = settings st
  /\ settings (onSave remote repositoryId st) = settings st
  /\ saveDisabled (onSave remote repositoryId st) = true
  /\ clearCachesChecked (onSave remote repositoryId st) = false.
Proof.
  intros H. unfold onSave, commitSaveSettingsMutation. rewrite H.
  rewrite settingsOfInput_variables. unfold saveDisabled, clearCachesChecked. simpl.
  repeat split.
  - now apply areSettingsTheSame_true.
  - now rewrite Z.eqb_refl.
Qed.

Lemma onSave_echo_clean_witness :
  saveDisabled sampleEdited = false
  /\ saveDisabled (onSave (fun vars => Completed (settingsOfInput vars) None)
                          "R1" sampleEdited) = true.
Proof.
  split.
  - reflexivity.
  - exact (proj1 (proj2 (proj2
      (onSave_echo_clean (fun vars => Completed (settingsOfInput vars) None)
                         "R1" sampleEdited eq_refl)))).
Defined.

(** X2: a failed save can be retried: the second attempt sends the request
    of the first, and when it completes without errors the saved snapshot
    is the response, the draft is still the one edited before the first
    attempt and the console holds the one entry of the failure. *)
Theorem onSave_retry_after_failure
        (remote1 remote2 : RepositorySettingsInput -> MutationResult)
        (repositoryId : string) (st : State) (entry : LogEntry) (response : Settings) :
  failureEntry (remote1 (variables repositoryId st)) = Some entry ->
  remote2 (variables repositoryId st) = Completed response None ->
  variables repositoryId (onSave remote1 repositoryId st) = variables repositoryId st
  /\ initialSettings (onSave remote2 repositoryId (onSave remote1 repositoryId st)) = response
  /\ settings (onSave remote2 repositoryId (onSave remote1 repositoryId st)) = settings st
  /\ console (onSave remote2 repositoryId (onSave remote1 repositoryId st))
     = (console st ++ [entry])%list.
Proof.
  intros H1 H2.
  assert (Hv : variables repositoryId (onSave remote1 repositoryId st)
               = variables repositoryId st).
  { unfold onSave, commitSaveSettingsMutation.
    destruct (remote1 (variables repositoryId st)) as [r [errs|]|err]; reflexivity. }
  split; [exact Hv|].
  unfold onSave at 1 3 5. unfold commitSaveSettingsMutation. rewrite Hv, H2. simpl.
  unfold onSave, commitSaveSettingsMutation.
  destruct (remote1 (variables repositoryId st)) as [r [errs|]|err];
    simpl in H1; try discriminate H1; injection H1 as <-; repeat split.
Qed.

Lemma onSave_retry_after_failure_witness :
  initialSettings (onSave dropEmptyKeys "R1" (onSave unreachable "R1" sampleEdited))
  = with_needsApproval true sampleSettings.
Proof.
  exact (proj1 (proj2
    (onSave_retry_after_failure unreachable dropEmptyKeys "R1" sampleEdited
       (ConsoleError "network") (with_needsApproval true sampleSettings)
       eq_refl eq_refl))).
Defined.

(** X3: a failure that arrives after further local edits gives the state
    that the same edits give after the failure: the error callbacks only
    print, whenever they run. *)
Theorem late_failure_commutes (es : list Edit) (st : State) :
  (forall err : string,
      onError err (applyEdits st es) = applyEdits (onError err st) es)
  /\ (forall (response : Settings) (errs : list string),
        onCompleted response (Some errs) (applyEdits st es)
        = applyEdits (onCompleted response (Some errs) st) es).
Proof.
  assert (H : forall entry, consolePrint entry (applyEdits st es)
                            = applyEdits (consolePrint entry st) es).
  { intros entry. unfold applyEdits. revert st.
    induction es as [|e es IH]; intros st; simpl; [reflexivity|].
    rewrite IH, applyEdit_consolePrint. reflexivity. }
  split; intros; apply H.
Qed.

(** X4: a successful completion that arrives after further local edits
    gives the state that the same edits give after the completion, as long
    as none of the edits is a click on the clear-caches box. *)
Theorem late_success_commutes (es : list Edit) (st : State) (response : Settings) :
  forallb (fun e => negb (isClearCaches e)) es = true ->
  onCompleted response None (applyEdits st es)
  = applyEdits (onCompleted response None st) es.
Proof.
  unfold applyEdits. simpl. revert st.
  induction es as [|e es IH]; intros st H; simpl in *; [reflexivity|].
  apply andb_true_iff in H. destruct H as [He Hes].
  apply negb_true_iff in He.
  rewrite (IH _ Hes), (applyEdit_setInitialSettings _ _ _ He). reflexivity.
Qed.

Lemma late_success_commutes_witness :
  onCompleted sampleSettings None
    (applyEdits sampleEdited [PendingInput "A=1"; AddEnv; Toggle needsApprovalKey])
  = applyEdits (onCompleted sampleSettings None sampleEdited)
               [PendingInput "A=1"; AddEnv; Toggle needsApprovalKey].
Proof.
  exact (late_success_commutes [PendingInput "A=1"; AddEnv; Toggle needsApprovalKey]
           sampleEdited sampleSettings eq_refl).
Defined.

Lemma applyEdit_cacheVersionInv (st : State) (e : Edit) :
  cacheVersionInv st -> cacheVersionInv (applyEdit st e).
Proof.
  unfold cacheVersionInv.
  destruct e as [[]|[] v|[]| | | |]; simpl; intros H; try exact H.
  - right; reflexivity.
  - left; reflexivity.
Qed.

(** X5: when the draft's cache version is the saved one or the sum of the
    saved one and 1, it stays so after every sequence of local edits,
    however often the clear-caches box is clicked, and so does the cache
    version of the request; for a saved version that is a safe integer the
    request carries the saved version or the saved version plus one. *)
Theorem applyEdits_cacheVersionInv (es : list Edit) (st : State) (repositoryId : string) :
  cacheVersionInv st ->
  cacheVersionInv (applyEdits st es)
  /\ (input_cacheVersion (variables repositoryId (applyEdits st es))
      = cacheVersion (initialSettings st)
      \/ input_cacheVersion (variables repositoryId (applyEdits st es))
         = JS.numberAdd (cacheVersion (initialSettings st)) 1)
  /\ (safeInteger (cacheVersion (initialSettings st)) ->
      input_cacheVersion (variables repositoryId (applyEdits st es))
      = cacheVersion (initialSettings st)
      \/ input_cacheVersion (variables repositoryId (applyEdits st es))
         = (cacheVersion (initialSettings st) + 1)%Z).
Proof.
  intros H.
  assert (Hinv : cacheVersionInv (applyEdits st es)).
  { unfold applyEdits. revert st H.
    induction es as [|e es IH]; intros st H; simpl; [exact H|].
    apply IH, applyEdit_cacheVersionInv, H. }
  split; [exact Hinv|].
  assert (Hs : initialSettings (applyEdits st es) = initialSettings st).
  { unfold applyEdits. clear H Hinv. revert st.
    induction es as [|e es IH]; intros st; simpl; [reflexivity|].
    rewrite IH. apply applyEdit_initialSettings. }
  unfold cacheVersionInv in Hinv. rewrite Hs in Hinv.
  split; [exact Hinv|].
  intros Hsafe. rewrite <- (numberAdd_safe _ Hsafe). exact Hinv.
Qed.

Lemma applyEdits_cacheVersionInv_witness :
  cacheVersionInv
    (applyEdits (init sampleSettings)
                [ClearCaches true; ClearCaches true; Toggle needsApprovalKey])
  /\ (input_cacheVersion
        (variables "R1" (applyEdits (init sampleSettings)
                           [ClearCaches true; ClearCaches true; Toggle needsApprovalKey]))
      = 3%Z
      \/ input_cacheVersion
           (variables "R1" (applyEdits (init sampleSettings)
                              [ClearCaches true; ClearCaches true; Toggle needsApprovalKey]))
         = (3 + 1)%Z).
Proof.
  assert (Hsafe : safeInteger (cacheVersion (initialSettings (init sampleSettings))))
    by reflexivity.
  split.
  - exact (proj1 (applyEdits_cacheVersionInv
                    [ClearCaches true; ClearCaches true; Toggle needsApprovalKey]
                    (init sampleSettings) "R1" (or_introl eq_refl))).
  - exact (proj2 (proj2 (applyEdits_cacheVersionInv
                    [ClearCaches true; ClearCaches true; Toggle needsApprovalKey]
                    (init sampleSettings) "R1" (or_introl eq_refl))) Hsafe).
Defined.

(** X6: two edits that write different fields of the draft can be made in
    either order: the resulting states are equal. *)
Theorem applyEdit_commute (e1 e2 : Edit) (k1 k2 : Key) (st : State) :
  target e1 = Some k1 -> target e2 = Some k2 -> k1 <> k2 ->
  applyEdit (applyEdit st e1) e2 = applyEdit (applyEdit st e2) e1.
Proof.
  intros H1 H2 Hne.
  destruct e1 as [[]|[] v1| | | | |], e2 as [[]|[] v2| | | | |];
    simpl in H1, H2; try discriminate H1; try discriminate H2;
    try reflexivity;
    injection H1 as <-; injection H2 as <-; now elim Hne.
Qed.

Lemma applyEdit_commute_witness :
  applyEdit (applyEdit sampleEdited AddEnv) (ClearCaches true)
  = applyEdit (applyEdit sampleEdited (ClearCaches true)) AddEnv.
Proof.
  assert (H : K_additionalEnvironment <> K_cacheVersion) by (intros E; discriminate E).
  exact (applyEdit_commute AddEnv (ClearCaches true)
           K_additionalEnvironment K_cacheVersion sampleEdited eq_refl eq_refl H).
Defined.

(** X7: edits of one control do not accumulate.  Toggling approval twice
    restores the state; of two choices in a select, two clicks on the
    clear-caches box, two texts in the claim-keys input or in the pending
    line the second alone counts; deleting a line a second time changes
    nothing. *)
Theorem applyEdit_same_control (st : State) :
  (forall field, toggleField field (toggleField field st) = st)
  /\ (forall field v1 v2,
        changeField field v2 (changeField field v1 st) = changeField field v2 st)
  /\ (forall c1 c2, setClearCaches c2 (setClearCaches c1 st) = setClearCaches c2 st)
  /\ (forall t1 t2,
        oidcSubIncludeClaimKeysChange t2 (oidcSubIncludeClaimKeysChange t1 st)
        = oidcSubIncludeClaimKeysChange t2 st)
  /\ (forall t1 t2,
        additionalEnvironmentToAddChange t2 (additionalEnvironmentToAddChange t1 st)
        = additionalEnvironmentToAddChange t2 st)
  /\ (forall line, deleteEnv line (deleteEnv line st) = deleteEnv line st).
Proof.
  repeat split.
  - intros []. unfold toggleField, setSettings, with_needsApproval. simpl.
    rewrite negb_involutive, Settings_eta. apply State_eta.
  - intros [] v1 v2; reflexivity.
  - intros line. unfold deleteEnv, setSettings, with_additionalEnvironment, JS.orEmpty. simpl.
    rewrite !filter_strictNe_remove.
    rewrite (notin_remove string_dec (remove string_dec line _) line (remove_In _ _ _)).
    reflexivity.
Qed.

(** X8: on a clean form (draft equal to the saved snapshot) toggling
    approval and committing the pending line, whatever it holds, each
    enable the Save button, and so does checking the clear-caches box when
    the saved cache version is a safe integer; typing in the pending line
    and unchecking the box leave it disabled. *)
Theorem saveDisabled_after_edit (st : State) :
  settings st = initialSettings st ->
  saveDisabled (toggleField needsApprovalKey st) = false
  /\ (safeInteger (cacheVersion (initialSettings st)) ->
      saveDisabled (setClearCaches true st) = false)
  /\ saveDisabled (addNewEnvVariable st) = false
  /\ (forall value, saveDisabled (additionalEnvironmentToAddChange value st) = true)
  /\ saveDisabled (setClearCaches false st) = true.
Proof.
  intros Hclean.
  assert (Hdirty : forall a b : Settings, a <> b -> areSettingsTheSame a b = false).
  { intros a b Hne. destruct (areSettingsTheSame a b) eqn:E; [|reflexivity].
    apply areSettingsTheSame_true in E. now elim Hne. }
  unfold saveDisabled. simpl. rewrite <- Hclean.
  split; [|split; [|split; [|split]]].
  - apply Hdirty. intros E. apply (f_equal needsApproval) in E. simpl in E.
    now destruct (needsApproval (settings st)).
  - intros Hsafe. apply Hdirty. intros E. apply (f_equal cacheVersion) in E. simpl in E.
    revert E. apply numberAdd_differs, Hsafe.
  - apply Hdirty. intros E. apply (f_equal additionalEnvironment) in E. simpl in E.
    unfold JS.concat1, JS.orEmpty in E.
    apply (f_equal (@List.length string)) in E. rewrite length_app in E. simpl in E. lia.
  - intros _. now apply areSettingsTheSame_true.
  - apply areSettingsTheSame_true. unfold with_cacheVersion. apply Settings_eta.
Qed.

Lemma saveDisabled_after_edit_witness :
  saveDisabled (init sampleSettings) = true
  /\ saveDisabled (addNewEnvVariable (init sampleSettings)) = false
  /\ saveDisabled (setClearCaches true (init sampleSettings)) = false.
Proof.
  assert (Hsafe : safeInteger (cacheVersion (initialSettings (init sampleSettings))))
    by reflexivity.
  split; [reflexivity | split].
  - exact (proj1 (proj2 (proj2 (saveDisabled_after_edit (init sampleSettings) eq_refl)))).
  - exact (proj1 (proj2 (saveDisabled_after_edit (init sampleSettings) eq_refl)) Hsafe).
Defined.

Lemma split_no_separator (sep : ascii) (s : string) :
  countChar sep s = 0 -> JS.split sep s = [s].
Proof.
  induction s as [|c r IH]; simpl; [reflexivity|].
  destruct (c =? sep)%char; [discriminate|].
  intros H. now rewrite (IH H).
Qed.

Lemma split_append_separator (sep : ascii) (s r : string) :
  countChar sep s = 0 ->
  JS.split sep (s ++ String sep r) = s :: JS.split sep r.
Proof.
  induction s as [|c s IH]; simpl.
  - intros _. now rewrite Ascii.eqb_refl.
  - destruct (c =? sep)%char; [discriminate|].
    intros H. now rewrite (IH H).
Qed.

Lemma split_join (sep : ascii) (a : list string) :
  a <> [] -> Forall (fun k => countChar sep k = 0) a ->
  JS.split sep (JS.join sep a) = a.
Proof.
  unfold JS.join. induction a as [|x a IH]; intros Hne Hall; [now elim Hne|].
  inversion Hall as [|? ? Hx Ha]; subst.
  destruct a as [|y a].
  - simpl. now apply split_no_separator.
  - change (String.concat (String sep "") (x :: y :: a))
      with (x ++ String sep (String.concat (String sep "") (y :: a))).
    rewrite (split_append_separator _ _ _ Hx).
    f_equal. apply IH; [discriminate | exact Ha].
Qed.

(** X9: [split] never returns the empty array, so on a form whose saved
    snapshot has no claim keys every edit of the claim-keys input, the
    empty text included, leaves a draft that differs from the saved
    snapshot: the Save button is enabled. *)
Theorem oidcSubIncludeClaimKeysChange_dirty (value : string) (st : State) :
  oidcSubIncludeClaimKeys (initialSettings st) = [] ->
  oidcSubIncludeClaimKeys (settings (oidcSubIncludeClaimKeysChange value st)) <> []
  /\ saveDisabled (oidcSubIncludeClaimKeysChange value st) = false.
Proof.
  intros Hsaved. split.
  - simpl. apply split_not_nil.
  - unfold saveDisabled.
    destruct (areSettingsTheSame _ _) eqn:E; [|reflexivity].
    apply areSettingsTheSame_true in E.
    apply (f_equal oidcSubIncludeClaimKeys) in E. simpl in E.
    rewrite Hsaved in E. now apply split_not_nil in E.
Qed.

Lemma oidcSubIncludeClaimKeysChange_dirty_witness :
  saveDisabled (oidcSubIncludeClaimKeysChange "" (init sampleSettings)) = false.
Proof.
  exact (proj2 (oidcSubIncludeClaimKeysChange_dirty "" (init sampleSettings) eq_refl)).
Defined.

(** X10: when the draft has at least one claim key and no key holds a
    comma, entering the text the claim-keys input displays gives back the
    same state: the displayed text determines the keys. *)
Theorem oidcSubIncludeClaimKeysChange_displayed (st : State) :
  oidcSubIncludeClaimKeys (settings st) <> [] ->
  Forall (fun k => countChar JS.comma k = 0) (oidcSubIncludeClaimKeys (settings st)) ->
  oidcSubIncludeClaimKeysChange (oidcSubIncludeClaimKeysValue st) st = st.
Proof.
  intros Hne Hall.
  unfold oidcSubIncludeClaimKeysChange, oidcSubIncludeClaimKeysValue.
  rewrite (split_join _ _ Hne Hall).
  unfold setSettings, with_oidcSubIncludeClaimKeys.
  rewrite Settings_eta. apply State_eta.
Qed.

Lemma oidcSubIncludeClaimKeysChange_displayed_witness :
  oidcSubIncludeClaimKeysChange
    (oidcSubIncludeClaimKeysValue (oidcSubIncludeClaimKeysChange "branch,,user" sampleEdited))
    (oidcSubIncludeClaimKeysChange "branch,,user" sampleEdited)
  = oidcSubIncludeClaimKeysChange "branch,,user" sampleEdited.
Proof.
  assert (Hne : oidcSubIncludeClaimKeys
                  (settings (oidcSubIncludeClaimKeysChange "branch,,user" sampleEdited)) <> [])
    by (intros E; discriminate E).
  assert (Hall : Forall (fun k => countChar JS.comma k = 0)
                   (oidcSubIncludeClaimKeys
                      (settings (oidcSubIncludeClaimKeysChange "branch,,user" sampleEdited))))
    by (repeat constructor).
  exact (oidcSubIncludeClaimKeysChange_displayed _ Hne Hall).
Defined.

(** X11: deleting a line that the draft does not hold changes nothing. *)
Theorem deleteEnv_absent (line : string) (st : State) :
  ~ In line (additionalEnvironment (settings st)) ->
  deleteEnv line st = st.
Proof.
  intros Hnot.
  unfold deleteEnv, setSettings, with_additionalEnvironment, JS.orEmpty.
  rewrite filter_strictNe_remove, (notin_remove string_dec _ _ Hnot), Settings_eta.
  apply State_eta.
Qed.

Lemma deleteEnv_absent_witness :
  deleteEnv "C=3" sampleWithEnv = sampleWithEnv.
Proof.
  assert (H : ~ In "C=3" (additionalEnvironment (settings sampleWithEnv))).
  { simpl. intros [E|[E|[E|[]]]]; discriminate E. }
  exact (deleteEnv_absent "C=3" sampleWithEnv H).
Defined.

Lemma environmentOverrides_items (st : State) (items : list EnvironmentItem) :
  environmentOverrides st = Some items ->
  items = map (fun line => mkItem line line (DeleteEnv line))
              (additionalEnvironment (settings st))
  /\ additionalEnvironment (settings st) <> [].
Proof.
  unfold environmentOverrides.
  destruct (additionalEnvironment (settings st)) as [|x l]; simpl.
  - discriminate.
  - intros H. injection H as <-. split; [reflexivity | discriminate].
Qed.

Lemma count_occ_remove_other (line other : string) (l : list string) :
  other <> line ->
  count_occ string_dec (remove string_dec line l) other = count_occ string_dec l other.
Proof.
  intros Hne. induction l as [|y l IH]; simpl; [reflexivity|].
  destruct (string_dec line y) as [<-|Hy].
  - destruct (string_dec line other) as [E|_]; [now elim Hne | exact IH].
  - simpl. destruct (string_dec y other); now rewrite IH.
Qed.

Lemma remove_head_NoDup (x : string) (l : list string) :
  NoDup (x :: l) -> remove string_dec x (x :: l) = l.
Proof.
  intros H. inversion H as [|? ? Hnot Hl]; subst. simpl.
  destruct (string_dec x x) as [_|Hne]; [|now elim Hne].
  now apply notin_remove.
Qed.

Lemma remove_length_NoDup (x : string) (l : list string) :
  NoDup l -> In x l -> S (List.length (remove string_dec x l)) = List.length l.
Proof.
  induction l as [|y l IH]; intros Hnd Hin; [now elim Hin|].
  inversion Hnd as [|? ? Hnot Hl]; subst.
  destruct (string_dec x y) as [->|Hne].
  - now rewrite (remove_head_NoDup _ _ Hnd).
  - simpl. destruct (string_dec x y) as [E|_]; [now elim Hne|].
    simpl. f_equal. apply IH; [exact Hl|].
    destruct Hin as [E|Hin]; [now elim Hne | exact Hin].
Qed.

(** X12: when the lines of the draft are pairwise distinct, the elements
    of the list of overrides have pairwise distinct keys and show the lines
    of the draft in order; the delete button of any of them removes the
    line it shows and no other: the draft has one line less, its lines are
    still pairwise distinct and every other line is kept. *)
Theorem environmentOverrides_delete
        (st : State) (items : list EnvironmentItem) (item : EnvironmentItem) :
  NoDup (additionalEnvironment (settings st)) ->
  environmentOverrides st = Some items -> In item items ->
  map primary items = additionalEnvironment (settings st)
  /\ NoDup (map itemKey items)
  /\ ~ In (primary item)
        (additionalEnvironment (settings (applyEdit st (onClick item))))
  /\ S (List.length (additionalEnvironment (settings (applyEdit st (onClick item)))))
     = List.length (additionalEnvironment (settings st))
  /\ NoDup (additionalEnvironment (settings (applyEdit st (onClick item))))
  /\ (forall other, other <> primary item ->
        count_occ string_dec
          (additionalEnvironment (settings (applyEdit st (onClick item)))) other
        = count_occ string_dec (additionalEnvironment (settings st)) other).
Proof.
  intros Hnd Hr Hin.
  apply environmentOverrides_items in Hr. destruct Hr as [-> _].
  apply in_map_iff in Hin. destruct Hin as (line & <- & Hline). simpl.
  unfold JS.orEmpty.
  split; [|split; [|split; [|split; [|split]]]].
  - rewrite map_map. simpl. apply map_id.
  - rewrite map_map. simpl. rewrite map_id. exact Hnd.
  - rewrite filter_strictNe_remove. apply remove_In.
  - rewrite filter_strictNe_remove. now apply remove_length_NoDup.
  - unfold JS.filter. now apply NoDup_filter.
  - intros other Hne. rewrite filter_strictNe_remove. now apply count_occ_remove_other.
Qed.

Lemma environmentOverrides_delete_witness :
  additionalEnvironment (settings sampleDistinctEnv) = ["A=1"; "B=2"]
  /\ additionalEnvironment
       (settings (applyEdit sampleDistinctEnv
                            (onClick (mkItem "B=2" "B=2" (DeleteEnv "B=2")))))
     = ["A=1"]
  /\ S (List.length
          (additionalEnvironment
             (settings (applyEdit sampleDistinctEnv
                                  (onClick (mkItem "B=2" "B=2" (DeleteEnv "B=2")))))))
     = List.length (additionalEnvironment (settings sampleDistinctEnv)).
Proof.
  assert (Hnd : NoDup (additionalEnvironment (settings sampleDistinctEnv))).
  { simpl. repeat constructor; simpl; intros H.
    - destruct H as [E|[]]. discriminate E.
    - exact H. }
  split; [reflexivity | split; [reflexivity|]].
  exact (proj1 (proj2 (proj2 (proj2
    (environmentOverrides_delete sampleDistinctEnv
       (map (fun line => mkItem line line (DeleteEnv line)) ["A=1"; "B=2"])
       (mkItem "B=2" "B=2" (DeleteEnv "B=2"))
       Hnd eq_refl (or_intror (or_introl eq_refl))))))).
Defined.

(** X13: when the lines of the draft are pairwise distinct, every press
    on the delete button of the first element removes the first line and
    nothing else: after [k] presses the draft holds its lines from the
    [k]-th on, and after as many presses as there were lines it holds none
    and no list is rendered; the saved snapshot is not touched. *)
Theorem clickFirstDelete_all (k : nat) (st : State) :
  NoDup (additionalEnvironment (settings st)) ->
  additionalEnvironment (settings (clickFirstDelete k st))
    = skipn k (additionalEnvironment (settings st))
  /\ initialSettings (clickFirstDelete k st) = initialSettings st
  /\ environmentOverrides
       (clickFirstDelete (List.length (additionalEnvironment (settings st))) st) = None.
Proof.
  assert (H : forall n s,
             NoDup (additionalEnvironment (settings s)) ->
             additionalEnvironment (settings (clickFirstDelete n s))
             = skipn n (additionalEnvironment (settings s))
             /\ initialSettings (clickFirstDelete n s) = initialSettings s).
  { induction n as [|n IH]; intros s Hnd; [split; reflexivity|].
    simpl clickFirstDelete. unfold environmentOverrides.
    destruct (additionalEnvironment (settings s)) as [|x l] eqn:E; simpl.
    - split; [exact E | reflexivity].
    - assert (Hl : additionalEnvironment (settings (deleteEnv x s)) = l).
      { simpl. unfold JS.orEmpty. rewrite filter_strictNe_remove, E.
        now apply remove_head_NoDup. }
      assert (Hnd' : NoDup (additionalEnvironment (settings (deleteEnv x s)))).
      { rewrite Hl. now inversion Hnd. }
      destruct (IH _ Hnd') as [H1 H2]. rewrite Hl in H1.
      split; [exact H1 | exact H2]. }
  intros Hnd. destruct (H k st Hnd) as [H1 H2].
  split; [exact H1 | split; [exact H2|]].
  destruct (H (List.length (additionalEnvironment (settings st))) st Hnd) as [H3 _].
  unfold environmentOverrides. rewrite H3, skipn_all. reflexivity.
Qed.

Lemma clickFirstDelete_all_witness :
  additionalEnvironment (settings (clickFirstDelete 1 sampleDistinctEnv)) = ["B=2"]
  /\ environmentOverrides (clickFirstDelete 2 sampleDistinctEnv) = None.
Proof.
  assert (Hnd : NoDup (additionalEnvironment (settings sampleDistinctEnv))).
  { simpl. repeat constructor; simpl; intros H.
    - destruct H as [E|[]]. discriminate E.
    - exact H. }
  split.
  - exact (proj1 (clickFirstDelete_all 1 sampleDistinctEnv Hnd)).
  - exact (proj2 (proj2 (clickFirstDelete_all 1 sampleDistinctEnv Hnd))).
Defined.

(** Beyond the safe integers the sum can be the saved version itself: the
    draft is then left as it was and the box stays unchecked. *)
Lemma setClearCaches_rounded (st : State) :
  cacheVersion (initialSettings st) = (2 ^ 53)%Z ->
  cacheVersion (settings (setClearCaches true st)) = cacheVersion (initialSettings st)
  /\ clearCachesChecked (setClearCaches true st) = false.
Proof.
  intros H. unfold clearCachesChecked. simpl. rewrite H.
  rewrite (proj1 numberAdd_rounds). split; reflexivity.
Qed.
